(** * A download server for the AirPlay receiver builds ([build/serve.py])

    The script subclasses Python's [http.server.SimpleHTTPRequestHandler]:
    it adds three fixed headers in [end_headers], answers the path [/] with
    a generated page ([serve_index]) and leaves every other path to the
    inherited file server.  [main] binds the listening socket and serves
    until interrupted.

    The development embeds the script as Rocq functions: Python [str] values
    are lists of code points, [bytes] values lists of bytes, handler methods
    are computations over the response under construction that may raise an
    exception, and [main] is a computation over the process's console and
    socket.  The properties of the script follow the definitions. *)

From Stdlib Require Import ZArith NArith List Lia.
From Stdlib.Strings Require Import String Ascii Byte.
From Stdlib Require Import DecimalString.
From stdpp Require Import base list gmap.

Local Open Scope Z_scope.

(** ** Python values *)

(** A [str] is a sequence of Unicode code points, a [bytes] a sequence of
    bytes; [len] counts the items of either. *)
Abbreviation str := (list N).
Abbreviation bytes := (list byte).

Definition len {A} (s : list A) : Z := Z.of_nat (length s).

(** The exceptions met in the script.  An [OSError] carries its [errno]
    (which may be [None]) and the text [str(e)] gives for it. *)
Inductive exn :=
  | ZeroDivisionError
  | UnicodeEncodeError
  | KeyboardInterrupt
  | OSError (errno : option Z) (text : str)
  | SystemExit (code : Z).

Definition byte_of_N (n : N) : byte := default Byte.x00 (Byte.of_N n).

(** UTF-8, the codec of [str.encode()]: one to four bytes per code point;
    surrogates and values above U+10FFFF are refused. *)
Definition utf8_encode_char (c : N) : option bytes :=
  if (c <? 0x80)%N then Some [byte_of_N c]
  else if (c <? 0x800)%N then
    Some [byte_of_N (N.lor 0xC0 (N.shiftr c 6));
          byte_of_N (N.lor 0x80 (N.land c 0x3F))]
  else if (c <? 0x10000)%N then
    if ((0xD800 <=? c) && (c <=? 0xDFFF))%N then None
    else Some [byte_of_N (N.lor 0xE0 (N.shiftr c 12));
               byte_of_N (N.lor 0x80 (N.land (N.shiftr c 6) 0x3F));
               byte_of_N (N.lor 0x80 (N.land c 0x3F))]
  else if (c <? 0x110000)%N then
    Some [byte_of_N (N.lor 0xF0 (N.shiftr c 18));
          byte_of_N (N.lor 0x80 (N.land (N.shiftr c 12) 0x3F));
          byte_of_N (N.lor 0x80 (N.land (N.shiftr c 6) 0x3F));
          byte_of_N (N.lor 0x80 (N.land c 0x3F))]
  else None.

Fixpoint encode (s : str) : option bytes :=
  match s with
  | [] => Some []
  | c :: s' =>
    match utf8_encode_char c, encode s' with
    | Some b, Some r => Some (b ++ r)
    | _, _ => None
    end
  end.

(** Reading of the literals below.  A literal is written as its UTF-8 text,
    which [utf8_decode] turns into code points. *)
Fixpoint utf8_decode (bs : list N) : str :=
  match bs with
  | [] => []
  | b0 :: r0 =>
    if (b0 <? 0x80)%N then b0 :: utf8_decode r0
    else match r0 with
    | [] => []
    | b1 :: r1 =>
      if (b0 <? 0xE0)%N then
        N.lor (N.shiftl (N.land b0 0x1F) 6) (N.land b1 0x3F) :: utf8_decode r1
      else match r1 with
      | [] => []
      | b2 :: r2 =>
        if (b0 <? 0xF0)%N then
          N.lor (N.shiftl (N.land b0 0x0F) 12)
            (N.lor (N.shiftl (N.land b1 0x3F) 6) (N.land b2 0x3F))
          :: utf8_decode r2
        else match r2 with
        | [] => []
        | b3 :: r3 =>
          N.lor (N.shiftl (N.land b0 0x07) 18)
            (N.lor (N.shiftl (N.land b1 0x3F) 12)
               (N.lor (N.shiftl (N.land b2 0x3F) 6) (N.land b3 0x3F)))
          :: utf8_decode r3
        end
      end
    end
  end.

(** [lit] reads a literal of the script.  The double quote of the Python
    text (code point 0x22) is written as a backquote (0x60), a character
    the script does not use. *)
Definition lit (s : string) : str :=
  utf8_decode
    (map (fun b => let n := Byte.to_N b in if (n =? 0x60)%N then 0x22%N else n)
         (list_byte_of_string s)).
Arguments lit s%_string.

(** [str(n)] for an [int]: its decimal digits, with a sign when negative. *)
Definition str_of_int (n : Z) : str :=
  map (fun b => Byte.to_N b)
      (list_byte_of_string (NilZero.string_of_int (Z.to_int n))).

(** [s * n] for a [str] and an [int]. *)
Definition str_repeat (s : str) (n : Z) : str :=
  concat (replicate (Z.to_nat n) s).

(** [s.endswith(suffix)]. *)
Definition endswith (s suffix : str) : bool :=
  bool_decide (drop (length s - length suffix) s = suffix).

(** ** Floats

    A Python [float] is an IEEE 754 binary64 number.  The values met here
    are finite, and are kept as [mantissa * 2 ^ exponent]; the exponent
    range of the format is not represented (a file size divided by [2^20]
    is well inside it). *)
Record float := mkfloat { mantissa : Z; exponent : Z }.

(** The integer nearest to [n / d] for [0 < d], ties going to the even one. *)
Definition round_half_even (n d : Z) : Z :=
  let q := n / d in
  let r := n mod d in
  if 2 * r <? d then q
  else if d <? 2 * r then q + 1
  else if Z.even q then q else q + 1.

(** [a / b] on two [int]s (true division): the float nearest to the exact
    quotient, that is the quotient rounded to 53 significant bits, ties to
    even.  [None] stands for [ZeroDivisionError]. *)
Definition int_truediv (a b : Z) : option float :=
  if b =? 0 then None
  else if a =? 0 then Some (mkfloat 0 0)
  else
    let n := Z.abs a in
    let d := Z.abs b in
    let e0 := Z.log2 n - Z.log2 d - 53 in
    let e :=
      if 2 ^ 53 * (d * 2 ^ Z.max 0 e0) <=? n * 2 ^ Z.max 0 (- e0)
      then e0 + 1 else e0 in
    let m := round_half_even (n * 2 ^ Z.max 0 (- e)) (d * 2 ^ Z.max 0 e) in
    Some (mkfloat (Z.sgn a * Z.sgn b * m) e).

(** [format(x, '.1f')]: [x] rounded to one digit after the point (the
    nearest tenth of the float's exact value, ties to even), printed with
    its integer part, a point and that digit. *)
Definition format_1f (x : float) : str :=
  let m := Z.abs (mantissa x) in
  let tenths :=
    if 0 <=? exponent x then 10 * m * 2 ^ exponent x
    else round_half_even (10 * m) (2 ^ (- exponent x)) in
  (if mantissa x <? 0 then lit "-" else []) ++
  str_of_int (tenths / 10) ++ lit "." ++ str_of_int (tenths mod 10).

(** ** Files

    A snapshot of the file system maps a path to what is stored there.  The
    size reported by [stat] for a regular file is the number of its bytes. *)
Inductive node :=
  | RegularFile (data : bytes)
  | Directory (dir_size : N) (names : list str).

Abbreviation filesystem := (gmap (list N) node).

Record stat_result := mkstat { st_size : Z }.

Definition node_stat (n : node) : stat_result :=
  match n with
  | RegularFile data => mkstat (len data)
  | Directory sz _ => mkstat (Z.of_N sz)
  end.

(** What a path names.  A path with a trailing slash names a directory or
    nothing. *)
Definition lookup_path (fs : filesystem) (p : str) : option node :=
  if endswith p (lit "/") then
    match fs !! take (length p - 1) p with
    | Some (Directory sz names) => Some (Directory sz names)
    | _ => None
    end
  else fs !! p.

(** [d / name] on [pathlib] paths, for a relative [name]. *)
Definition Path_div (d name : str) : str :=
  if endswith d (lit "/") then d ++ name else d ++ lit "/" ++ name.

(** [os.path.join(path, name)] for a relative [name]. *)
Definition os_path_join (path name : str) : str :=
  if endswith path (lit "/") then path ++ name else path ++ lit "/" ++ name.

(** ** Computations

    A method runs on a state [S] and returns a value, raises an exception,
    or (for [serve_forever]) never finishes. *)
Inductive result (A : Type) :=
  | Return (a : A)
  | Raise (e : exn)
  | Forever.
Arguments Return {A} a.
Arguments Raise {A} e.
Arguments Forever {A}.

Definition M (S A : Type) : Type := S -> result A * S.

Definition ret {S A} (a : A) : M S A := fun s => (Return a, s).

Definition bind {S A B} (m : M S A) (k : A -> M S B) : M S B :=
  fun s =>
    match m s with
    | (Return a, s') => k a s'
    | (Raise e, s') => (Raise e, s')
    | (Forever, s') => (Forever, s')
    end.

Definition raise {S A} (e : exn) : M S A := fun s => (Raise e, s).

(** [try: body / except: handler]; the handler re-raises what it does not
    catch. *)
Definition try_except {S A} (body : M S A) (handler : exn -> M S A) : M S A :=
  fun s =>
    match body s with
    | (Raise e, s') => handler e s'
    | other => other
    end.

(** [try: body / finally: cleanup]. *)
Definition try_finally {S A} (body : M S A) (cleanup : M S unit) : M S A :=
  fun s =>
    match body s with
    | (Return a, s') => bind cleanup (fun _ => ret a) s'
    | (Raise e, s') => bind cleanup (fun _ => raise e) s'
    | (Forever, s') => (Forever, s')
    end.

Declare Scope py_scope.
Delimit Scope py_scope with py.
Notation "x <- m ;; k" := (bind m (fun x => k))
  (at level 100, m at next level, right associativity) : py_scope.
Notation "m ;; k" := (bind m (fun _ => k))
  (at level 100, right associativity) : py_scope.
Local Open Scope py_scope.

Definition get {S : Type} : M S S := fun s => (Return s, s).
Definition modify {S : Type} (f : S -> S) : M S unit := fun s => (Return tt, f s).

(** [FileNotFoundError] is the [OSError] of [errno] 2 ([ENOENT]). *)
Definition FileNotFoundError (filename : str) : exn :=
  OSError (Some 2)
    (lit "[Errno 2] No such file or directory: '" ++ filename ++ lit "'").

(** [pathlib.Path.exists] and [pathlib.Path.stat]. *)
Definition Path_exists (fs : filesystem) (p : str) : bool :=
  bool_decide (is_Some (lookup_path fs p)).

Definition Path_stat {S : Type} (fs : filesystem) (p : str) : M S stat_result :=
  match lookup_path fs p with
  | Some n => ret (node_stat n)
  | None => raise (FileNotFoundError p)
  end.

(** ** [http.server]: the request handler base classes

    The base classes belong to Python's standard library.  Their methods
    are given here as the library defines them, on the response under
    construction: the status line, the header buffer, the header block
    already written, and the body written to [wfile].  ([send_response]
    also adds the library's [Server] and [Date] headers, which are left
    out.) *)
Record response := mkresponse {
  status : option Z;
  _headers_buffer : list (str * str);
  headers : option (list (str * str));
  body : bytes
}.

Definition empty_response : response := mkresponse None [] None [].

Record request := mkrequest { command : str; path : str }.

(** What the library reads on [self]: the method and path of the request,
    and [end_headers], which a subclass may override. *)
Record handler := mkhandler {
  self_command : str;
  self_path : str;
  self_end_headers : M response unit
}.

(** What the library takes from its platform: path translation, MIME
    types, dates and the text of the pages it generates. *)
Class Platform := {
  DIRECTORY : str;
  translate_path : str -> str -> str;
  urlsplit_path : str -> str;
  redirect_url : str -> str;
  guess_type : str -> str;
  last_modified : str -> str;
  directory_listing : str -> list str -> bytes;
  error_body : Z -> str -> bytes;
  error_content_type : str
}.

Module BaseHTTPRequestHandler.

Definition send_response (code : Z) : M response unit :=
  modify (fun r =>
    mkresponse (Some code) (_headers_buffer r) (headers r) (body r)).

Definition send_header (keyword value : str) : M response unit :=
  modify (fun r =>
    mkresponse (status r) (_headers_buffer r ++ [(keyword, value)])
               (headers r) (body r)).

(** Writes the buffered headers and the blank line ending them. *)
Definition end_headers : M response unit :=
  modify (fun r =>
    mkresponse (status r) []
               (Some (default [] (headers r) ++ _headers_buffer r))
               (body r)).

Definition wfile_write (b : bytes) : M response unit :=
  modify (fun r =>
    mkresponse (status r) (_headers_buffer r) (headers r) (body r ++ b)).

Section Methods.
Context `{Platform}.
Variable self : handler.

(** An error response; the explanation is sent as body unless the status
    allows none or the request is a [HEAD]. *)
Definition send_error (code : Z) (message : str) : M response unit :=
  send_response code ;;
  send_header (lit "Connection") (lit "close") ;;
  let body :=
    if (200 <=? code) && negb (bool_decide (code ∈ [204; 205; 304]))
    then Some (error_body code message) else None in
  match body with
  | Some content =>
    send_header (lit "Content-Type") error_content_type ;;
    send_header (lit "Content-Length") (str_of_int (len content))
  | None => ret tt
  end ;;
  self_end_headers self ;;
  match body with
  | Some content =>
    if bool_decide (self_command self <> lit "HEAD")
       && negb (bool_decide (content = []))
    then wfile_write content else ret tt
  | None => ret tt
  end.

End Methods.

End BaseHTTPRequestHandler.

Module SimpleHTTPRequestHandler.
Import BaseHTTPRequestHandler.

Section Methods.
Context `{Platform}.
Variable self : handler.
Variable fs : filesystem.

Definition list_directory (path : str) (names : list str)
  : M response (option bytes) :=
  let encoded := directory_listing (self_path self) names in
  send_response 200 ;;
  send_header (lit "Content-type") (lit "text/html; charset=utf-8") ;;
  send_header (lit "Content-Length") (str_of_int (len encoded)) ;;
  self_end_headers self ;;
  ret (Some encoded).

(** The part of [send_head] that opens a file and sends its headers. *)
Definition send_file_head (path : str) : M response (option bytes) :=
  let ctype := guess_type path in
  if endswith path (lit "/") then
    send_error self 404 (lit "File not found") ;; ret None
  else
    match lookup_path fs path with
    | Some (RegularFile data) =>
      send_response 200 ;;
      send_header (lit "Content-type") ctype ;;
      send_header (lit "Content-Length") (str_of_int (len data)) ;;
      send_header (lit "Last-Modified") (last_modified path) ;;
      self_end_headers self ;;
      ret (Some data)
    | _ => send_error self 404 (lit "File not found") ;; ret None
    end.

(** Headers for a request without conditions ([If-Modified-Since]). *)
Definition send_head : M response (option bytes) :=
  let url := self_path self in
  let path := translate_path DIRECTORY url in
  match lookup_path fs path with
  | Some (Directory _ names) =>
    if negb (endswith (urlsplit_path url) (lit "/")) then
      send_response 301 ;;
      send_header (lit "Location") (redirect_url url) ;;
      send_header (lit "Content-Length") (lit "0") ;;
      self_end_headers self ;;
      ret None
    else
      match lookup_path fs (os_path_join path (lit "index.html")) with
      | Some (RegularFile _) =>
        send_file_head (os_path_join path (lit "index.html"))
      | _ =>
        match lookup_path fs (os_path_join path (lit "index.htm")) with
        | Some (RegularFile _) =>
          send_file_head (os_path_join path (lit "index.htm"))
        | _ => list_directory path names
        end
      end
  | _ => send_file_head path
  end.

Definition do_GET : M response unit :=
  f <- send_head ;;
  match f with
  | Some data => wfile_write data
  | None => ret tt
  end.

Definition do_HEAD : M response unit :=
  f <- send_head ;;
  ret tt.
End Methods.

End SimpleHTTPRequestHandler.

(** ** The script: [CustomHTTPRequestHandler] *)

Definition PORT : Z := 8080.

Module CustomHTTPRequestHandler.
Import BaseHTTPRequestHandler.

(** Adds the CORS and cache headers, then ends the headers as the base
    class does. *)
Definition end_headers : M response unit :=
  send_header (lit "Access-Control-Allow-Origin") (lit "*") ;;
  send_header (lit "Access-Control-Allow-Methods") (lit "GET, OPTIONS") ;;
  send_header (lit "Cache-Control") (lit "no-store, no-cache, must-revalidate") ;;
  BaseHTTPRequestHandler.end_headers.

Definition zip_file_orig : str := lit "airplay-receiver-windows-x64-audio.zip".
Definition zip_file_core : str := lit "airplay-core-test-win-x64.zip".

(** The literal parts of the page, in the order of the f-string; between
    them come the file names and sizes (see [html]). *)
Definition html_0 : str := lit "<!DOCTYPE html>
<html lang=`en`>
<head>
    <meta charset=`UTF-8`>
    <meta name=`viewport` content=`width=device-width, initial-scale=1.0`>
    <title>AirPlay Receiver - Windows Build</title>
    <style>
        * { margin: 0; padding: 0; box-sizing: border-box; }
        body {
            font-family: -apple-system, BlinkMacSystemFont, `Segoe UI`, Roboto, `Helvetica Neue`, Arial, sans-serif;
            line-height: 1.6;
            color: #333;
            background: linear-gradient(135deg, #667eea 0%, #764ba2 100%);
            min-height: 100vh;
            display: flex;
            align-items: center;
            justify-content: center;
            padding: 20px;
        }
        .container {
            background: white;
            border-radius: 20px;
            box-shadow: 0 20px 60px rgba(0,0,0,0.3);
            max-width: 800px;
            width: 100%;
            padding: 50px;
        }
        h1 {
            color: #667eea;
            font-size: 2.5em;
            margin-bottom: 10px;
            text-align: center;
        }
        .subtitle {
            text-align: center;
            color: #666;
            margin-bottom: 40px;
            font-size: 1.1em;
        }
        .download-section {
            background: #f8f9fa;
            border-radius: 15px;
            padding: 30px;
            margin: 30px 0;
            text-align: center;
        }
        .download-btn {
            display: inline-block;
            background: linear-gradient(135deg, #667eea 0%, #764ba2 100%);
            color: white;
            text-decoration: none;
            padding: 18px 40px;
            border-radius: 50px;
            font-size: 1.2em;
            font-weight: 600;
            transition: transform 0.2s, box-shadow 0.2s;
            box-shadow: 0 10px 25px rgba(102, 126, 234, 0.4);
        }
        .download-btn:hover {
            transform: translateY(-2px);
            box-shadow: 0 15px 35px rgba(102, 126, 234, 0.5);
        }
        .file-info {
            margin-top: 15px;
            color: #666;
            font-size: 0.95em;
        }
        .features {
            list-style: none;
            margin: 30px 0;
        }
        .features li {
            padding: 12px 0;
            border-bottom: 1px solid #eee;
        }
        .features li:last-child {
            border-bottom: none;
        }
        .features li:before {
            content: `✓`;
            color: #667eea;
            font-weight: bold;
            margin-right: 10px;
        }
        .requirements {
            background: #fff3cd;
            border-left: 4px solid #ffc107;
            padding: 15px;
            margin: 20px 0;
            border-radius: 5px;
        }
        .requirements h3 {
            color: #856404;
            margin-bottom: 10px;
        }
        .footer {
            text-align: center;
            margin-top: 30px;
            padding-top: 20px;
            border-top: 1px solid #eee;
            color: #666;
            font-size: 0.9em;
        }
        .footer a {
            color: #667eea;
            text-decoration: none;
        }
        .footer a:hover {
            text-decoration: underline;
        }
    </style>
</head>
<body>
    <div class=`container`>
        <h1>🎵 AirPlay Receiver</h1>
        <p class=`subtitle`>.NET 8.0 Builds - Choose Your Version</p>

        <h2 style=`color: #667eea; margin-top: 30px; margin-bottom: 15px;`>🆕 AirPlay.Core Build (RECOMMENDED)</h2>
        <div class=`download-section`>
            <a href=`".

Definition html_1 : str := lit "` class=`download-btn` download>
                📦 Download AirPlay.Core Test
            </a>
            <div class=`file-info`>
                File: ".

Definition html_2 : str := lit "<br>
                Size: ".

Definition html_3 : str := lit " MB<br>
                <strong>Pure C# audio decoders (no native DLLs!) - Test this first!</strong>
            </div>
        </div>

        <h2 style=`color: #764ba2; margin-top: 40px; margin-bottom: 15px;`>Original Build</h2>
        <div class=`download-section`>
            <a href=`".

Definition html_4 : str := lit "` class=`download-btn` download style=`background: linear-gradient(135deg, #764ba2 0%, #667eea 100%);`>
                📦 Download Original
            </a>
            <div class=`file-info`>
                File: ".

Definition html_5 : str := lit "<br>
                Size: ".

Definition html_6 : str := lit " MB<br>
                Uses native DLLs for audio decoding
            </div>
        </div>

        <div class=`requirements`>
            <h3>What's Different?</h3>
            <p><strong>AirPlay.Core:</strong> Uses pure C# audio decoders (SharpJaad.AAC, LibALAC) - more portable, claimed to have working audio<br>
            <strong>Original:</strong> Uses native DLLs (libfdk-aac-2.dll, libalac-0.dll) - had choppy audio issues</p>
        </div>

        <ul class=`features`>
            <li><strong>Audio Playback</strong> - Stream music from iPhone to Windows speakers (working!)</li>
            <li><strong>.NET 8.0</strong> - Modern runtime with better performance and security</li>
            <li><strong>Portable</strong> - No installation required, includes all dependencies</li>
            <li><strong>Pre-configured</strong> - Works immediately after extraction</li>
        </ul>

        <h3 style=`margin-top: 30px; color: #667eea;`>Quick Start</h3>
        <ol style=`margin-left: 20px; color: #555;`>
            <li>Download and extract the ZIP file</li>
            <li>For AirPlay.Core: Double-click <code>AirPlayCoreTest.exe</code></li>
            <li>For Original: Double-click <code>AirPlay.exe</code></li>
            <li>Allow through Windows Firewall when prompted</li>
            <li>Open Control Center on iOS and select the AirPlay receiver</li>
        </ol>

        <div class=`footer`>
            <p>Open source implementation of AirPlay 2 protocol</p>
            <p>Source: <a href=`https://github.com/SteeBono/airplayreceiver` target=`_blank`>github.com/SteeBono/airplayreceiver</a></p>
        </div>
    </div>
</body>
</html>".

(** The f-string of [serve_index]. *)
Definition html (zip_size_mb_core zip_size_mb_orig : float) : str :=
  html_0 ++ zip_file_core ++
  html_1 ++ zip_file_core ++
  html_2 ++ format_1f zip_size_mb_core ++
  html_3 ++ zip_file_orig ++
  html_4 ++ zip_file_orig ++
  html_5 ++ format_1f zip_size_mb_orig ++
  html_6.

Definition truediv {S : Type} (a b : Z) : M S float :=
  match int_truediv a b with
  | Some x => ret x
  | None => raise ZeroDivisionError
  end.

Definition str_encode {S : Type} (s : str) : M S bytes :=
  match encode s with
  | Some b => ret b
  | None => raise UnicodeEncodeError
  end.

Section Methods.
Context `{Platform}.
Variable fs : filesystem.
Variable req : request.

(** [self] for the handler of the request [req]; its [end_headers] is the
    override. *)
Definition self : handler := mkhandler (command req) (path req) end_headers.

(** Serve a custom index page with download links. *)
Definition serve_index : M response unit :=
  (* Original build *)
  let zip_path_orig := Path_div DIRECTORY zip_file_orig in
  zip_size_orig <-
    (if Path_exists fs zip_path_orig
     then st <- Path_stat fs zip_path_orig ;; ret (st_size st)
     else ret 0) ;;
  zip_size_mb_orig <- truediv zip_size_orig (1024 * 1024) ;;
  (* AirPlay.Core build *)
  let zip_path_core := Path_div DIRECTORY zip_file_core in
  zip_size_core <-
    (if Path_exists fs zip_path_core
     then st <- Path_stat fs zip_path_core ;; ret (st_size st)
     else ret 0) ;;
  zip_size_mb_core <- truediv zip_size_core (1024 * 1024) ;;
  let html := html zip_size_mb_core zip_size_mb_orig in
  send_response 200 ;;
  send_header (lit "Content-type") (lit "text/html") ;;
  send_header (lit "Content-Length") (str_of_int (len html)) ;;
  end_headers ;;
  encoded <- str_encode html ;;
  wfile_write encoded.

Definition do_GET : M response unit :=
  (* Serve custom index page for root *)
  if bool_decide (path req = lit "/") then serve_index
  else SimpleHTTPRequestHandler.do_GET self fs.

(** [do_HEAD] is inherited. *)
Definition do_HEAD : M response unit :=
  SimpleHTTPRequestHandler.do_HEAD self fs.

(** The dispatch of [handle_one_request] on the request's method; the
    class has [do_GET] and [do_HEAD]. *)
Definition handle_one_request : M response unit :=
  if bool_decide (command req = lit "GET") then do_GET
  else if bool_decide (command req = lit "HEAD") then do_HEAD
  else send_error self 501 (lit "Unsupported method").

End Methods.

End CustomHTTPRequestHandler.

(** ** The script: [main]

    The process has a console and a record of the sockets it asked for.
    What the system answers is given by a scenario: whether binding raises,
    and how [serve_forever] ends, if it does. *)
Record process := mkprocess {
  stdout : str;
  bound : list (str * Z);
  closed : nat
}.

Definition start : process := mkprocess [] [] 0%nat.

Record scenario := mkscenario {
  bind_raises : option exn;
  serve_forever_raises : option exn
}.

Definition print (s : str) : M process unit :=
  modify (fun p => mkprocess (stdout p ++ s ++ lit "
") (bound p) (closed p)).

Definition sys_exit {A} (code : Z) : M process A := raise (SystemExit code).

Module socketserver.

(** [TCPServer(address, handler)]: binds and listens, or raises. *)
Definition TCPServer (sc : scenario) (address : str * Z) : M process unit :=
  modify (fun p => mkprocess (stdout p) (bound p ++ [address]) (closed p)) ;;
  match bind_raises sc with
  | Some e => raise e
  | None => ret tt
  end.

Definition serve_forever (sc : scenario) : M process unit :=
  match serve_forever_raises sc with
  | Some e => raise e
  | None => fun p => (Forever, p)
  end.

Definition server_close : M process unit :=
  modify (fun p => mkprocess (stdout p) (bound p) (S (closed p))).

End socketserver.

Section Main.
Context `{Platform}.
Variable sc : scenario.

Definition main : M process unit :=
  try_except
    (socketserver.TCPServer sc ([], PORT) ;;
     try_finally
       (print (lit "
" ++ str_repeat (lit "=") 70) ;;
        print (lit "  AirPlay Receiver Build Server") ;;
        print (str_repeat (lit "=") 70) ;;
        print (lit "
  📦 Serving directory: " ++ DIRECTORY) ;;
        print (lit "  🌐 Server running at: http://localhost:" ++ str_of_int PORT) ;;
        print (lit "  🌐 Network access at: http://<your-ip>:" ++ str_of_int PORT) ;;
        print (lit "
  Press Ctrl+C to stop the server") ;;
        print (str_repeat (lit "=") 70 ++ lit "
") ;;
        socketserver.serve_forever sc)
       socketserver.server_close)
    (fun e =>
       match e with
       | KeyboardInterrupt =>
         print (lit "

  Server stopped.") ;;
         sys_exit 0
       | OSError errno text =>
         (if bool_decide (errno = Some 98) then
            print (lit "
  Error: Port " ++ str_of_int PORT ++ lit " is already in use.") ;;
            print (lit "  Try closing other applications or use a different port.")
          else
            print (lit "
  Error: " ++ text)) ;;
         sys_exit 1
       | _ => raise e
       end).

End Main.

(** The exit status of the process, once [main] has ended: 0 when it
    returns, the code of a [SystemExit], 1 for an exception nobody
    caught. *)
Definition exit_status (r : result unit) : option Z :=
  match r with
  | Return _ => Some 0
  | Raise (SystemExit code) => Some code
  | Raise _ => Some 1
  | Forever => None
  end.

(** ** Vocabulary of the properties *)

(** [needle in hay]. *)
Definition contains (needle hay : str) : Prop :=
  exists before after, hay = before ++ needle ++ after.

(** [s] encodes, and takes [k] more bytes than it has code points. *)
Definition encodes_with (s : str) (k : Z) : Prop :=
  exists e, encode s = Some e /\ len e = len s + k.

Definition ascii_only (s : str) : Prop := Forall (fun c => (c < 0x80)%N) s.

(** The lines of the page that give an archive's name and size. *)
Definition size_lines (zip_file size : str) : str :=
  lit "File: " ++ zip_file ++ lit "<br>
                Size: " ++ size ++ lit " MB<br>".

(** A number of tenths, printed with one digit after the point. *)
Definition one_decimal (tenths : Z) : str :=
  str_of_int (tenths / 10) ++ lit "." ++ str_of_int (tenths mod 10).

(** The size in mebibytes to one decimal place, on the exact quotient:
    the nearest number of tenths of [S / (1024 * 1024)], printed. *)
Definition mebibytes_1f (S : Z) : str :=
  one_decimal (round_half_even (10 * S) (1024 * 1024)).

(** The headers [end_headers] adds. *)
Definition cors_headers : list (str * str) :=
  [(lit "Access-Control-Allow-Origin", lit "*");
   (lit "Access-Control-Allow-Methods", lit "GET, OPTIONS");
   (lit "Cache-Control", lit "no-store, no-cache, must-revalidate")].

(** The header block has been written and ends with these headers. *)
Definition finalized (r : response) : Prop :=
  exists hs, headers r = Some hs /\ cors_headers `suffix_of` hs.

(** [errno.EADDRINUSE] on Linux. *)
Definition EADDRINUSE : Z := 98.

Section Observations.
Context `{Platform}.

(** What [serve_index] can see of an archive: whether it is there and, if
    so, its size. *)
Definition archive_view (fs : filesystem) (zip_file : str) : option Z :=
  (fun n => st_size (node_stat n)) <$> lookup_path fs (Path_div DIRECTORY zip_file).

(** The size [serve_index] takes for an archive: the one [stat] reports
    when the path exists, otherwise 0. *)
Definition observed_size (fs : filesystem) (zip_file : str) : Z :=
  match lookup_path fs (Path_div DIRECTORY zip_file) with
  | Some n => st_size (node_stat n)
  | None => 0
  end.

(** The response [serve_index] leaves, for the page [page] encoded as
    [encoded]. *)
Definition index_response (r0 : response) (page : str) (encoded : bytes)
  : response :=
  mkresponse (Some 200) []
    (Some (default [] (headers r0) ++
           _headers_buffer r0 ++
           [(lit "Content-type", lit "text/html");
            (lit "Content-Length", str_of_int (len page));
            (lit "Access-Control-Allow-Origin", lit "*");
            (lit "Access-Control-Allow-Methods", lit "GET, OPTIONS");
            (lit "Cache-Control", lit "no-store, no-cache, must-revalidate")]))
    (body r0 ++ encoded).

End Observations.

(** ** A platform and file systems for the examples *)

Fixpoint before_query (url : str) : str :=
  match url with
  | [] => []
  | c :: url' => if (c =? 0x3F)%N then [] else c :: before_query url'
  end.

(** A path translation for plain paths: the query is dropped and the rest
    is appended to the directory. *)
Definition plain_translate_path (directory url : str) : str :=
  directory ++ before_query url.

Definition plain_platform : Platform := {|
  DIRECTORY := lit "/srv/build";
  translate_path := plain_translate_path;
  urlsplit_path := before_query;
  redirect_url := fun url => url ++ lit "/";
  guess_type := fun _ => lit "application/octet-stream";
  last_modified := fun _ => lit "Thu, 01 Jan 1970 00:00:00 GMT";
  directory_listing := fun _ names => default [] (encode (concat names));
  error_body := fun _ message => default [] (encode message);
  error_content_type := lit "text/html;charset=utf-8"
|}.

Definition four_kibibytes : bytes := replicate (N.to_nat 4096) Byte.x00.

(** Only the core archive is there, with 4096 bytes. *)
Definition fs_core_only : filesystem :=
  {[ lit "/srv/build" := Directory 4096 [lit "airplay-core-test-win-x64.zip"];
     lit "/srv/build/airplay-core-test-win-x64.zip" := RegularFile four_kibibytes ]}.

(** The same, with one more file beside the archive. *)
Definition fs_core_and_notes : filesystem :=
  <[ lit "/srv/build/notes.txt" := RegularFile [] ]> fs_core_only.

Definition get_core_archive : request :=
  mkrequest (lit "GET") (lit "/airplay-core-test-win-x64.zip").

(** The text [main] prints once the socket is bound. *)
Definition banner (directory : str) : str :=
  lit "
======================================================================
  AirPlay Receiver Build Server
======================================================================

  📦 Serving directory: " ++ directory ++ lit "
  🌐 Server running at: http://localhost:8080
  🌐 Network access at: http://<your-ip>:8080

  Press Ctrl+C to stop the server
======================================================================

".

(** What [main] prints for an [OSError]. *)
Definition error_report (errno : option Z) (text : str) : str :=
  if bool_decide (errno = Some 98)
  then lit "
  Error: Port 8080 is already in use.
  Try closing other applications or use a different port.
"
  else lit "
  Error: " ++ text ++ lit "
".

(** The exception that ends [main], if any: the one binding raises, or
    else the one that ends [serve_forever]. *)
Definition first_exception (sc : scenario) : option exn :=
  match bind_raises sc with
  | Some e => Some e
  | None => serve_forever_raises sc
  end.

(** The number of headers of a block that bear a name. *)
Definition header_count (name : str) (hs : list (str * str)) : nat :=
  length (filter (fun kv => kv.1 = name) hs).

(** Each of the three fixed headers occurs once. *)
Definition fixed_headers_once (hs : list (str * str)) : Prop :=
  header_count (lit "Access-Control-Allow-Origin") hs = 1%nat /\
  header_count (lit "Access-Control-Allow-Methods") hs = 1%nat /\
  header_count (lit "Cache-Control") hs = 1%nat.

(** * Properties *)

(** ** Strings and their encoding *)



Lemma len_app {A} (a b : list A) : len (a ++ b) = len a + len b.
Proof. unfold len. rewrite length_app. lia. Qed.

Lemma encode_app a b ea eb :
  encode a = Some ea -> encode b = Some eb -> encode (a ++ b) = Some (ea ++ eb).
Proof.
  revert ea. induction a as [|c a IH]; intros ea Ha Hb; simpl in *.
  - injection Ha as <-. exact Hb.
  - destruct (utf8_encode_char c) as [bc|]; [|discriminate].
    destruct (encode a) as [ea'|]; [|discriminate].
    injection Ha as <-. rewrite (IH ea' eq_refl Hb).
    now rewrite <- app_assoc.
Qed.

Lemma encodes_with_app a b j k :
  encodes_with a j -> encodes_with b k -> encodes_with (a ++ b) (j + k).
Proof.
  intros (ea & Ha & La) (eb & Hb & Lb). exists (ea ++ eb). split.
  - now apply encode_app.
  - rewrite !len_app. lia.
Qed.


Lemma encodes_with_ascii s : ascii_only s -> encodes_with s 0.
Proof.
  induction 1 as [|c s Hc _ (e & He & Le)].
  - exists []. split; reflexivity.
  - exists (byte_of_N c :: e). split.
    + simpl. unfold utf8_encode_char.
      apply N.ltb_lt in Hc. rewrite Hc, He. reflexivity.
    + unfold len in *. simpl length. lia.
Qed.

Lemma ascii_only_app a b : ascii_only a -> ascii_only b -> ascii_only (a ++ b).
Proof. apply Forall_app_2. Qed.

Lemma ascii_only_uint d :
  ascii_only (map Byte.to_N (list_byte_of_string (NilEmpty.string_of_uint d))).
Proof.
  induction d; simpl; constructor; try assumption; reflexivity.
Qed.

Lemma ascii_only_str_of_int n : ascii_only (str_of_int n).
Proof.
  unfold str_of_int, NilZero.string_of_int.
  destruct (Z.to_int n) as [d|d]; unfold NilZero.string_of_uint.
  - destruct d; try apply ascii_only_uint. repeat constructor.
  - simpl. constructor; [reflexivity|].
    destruct d; try apply ascii_only_uint. repeat constructor.
Qed.

Lemma ascii_only_format_1f x : ascii_only (format_1f x).
Proof.
  unfold format_1f. repeat apply ascii_only_app.
  - destruct (mantissa x <? 0); [vm_compute|]; repeat constructor.
  - apply ascii_only_str_of_int.
  - vm_compute. repeat constructor.
  - apply ascii_only_str_of_int.
Qed.

(** ** Floats *)

Lemma int_truediv_total a b : b <> 0 -> exists x, int_truediv a b = Some x.
Proof.
  intros Hb. unfold int_truediv.
  destruct (Z.eqb_spec b 0) as [->|_]; [contradiction|].
  destruct (a =? 0); eauto.
Qed.

Lemma round_half_even_exact k d : 0 < d -> round_half_even (k * d) d = k.
Proof.
  intros Hd. unfold round_half_even.
  rewrite Z.div_mul, Z.mod_mul by lia.
  destruct (Z.ltb_spec (2 * 0) d); [reflexivity | lia].
Qed.

Lemma round_half_even_scale n d k :
  0 < d -> 0 < k -> round_half_even (n * k) (d * k) = round_half_even n d.
Proof.
  intros Hd Hk. unfold round_half_even.
  rewrite Z.div_mul_cancel_r, Zmult_mod_distr_r by lia.
  destruct (Z.ltb_spec (2 * (n mod d * k)) (d * k)),
           (Z.ltb_spec (2 * (n mod d)) d); try nia;
  destruct (Z.ltb_spec (d * k) (2 * (n mod d * k))),
           (Z.ltb_spec d (2 * (n mod d))); try nia; reflexivity.
Qed.


(** Below [2^53] bytes the float quotient is the exact quotient, and its
    rendering is the one of the exact value. *)
Lemma format_1f_truediv_exact S x :
  0 <= S < 2 ^ 53 ->
  int_truediv S (1024 * 1024) = Some x ->
  format_1f x = mebibytes_1f S.
Proof.
  intros [H0 H53] Hx. unfold int_truediv in Hx.
  change (1024 * 1024 =? 0) with false in Hx. cbv iota in Hx.
  destruct (Z.eqb_spec S 0) as [->|Hne].
  { injection Hx as <-. reflexivity. }
  assert (HS : 0 < S) by lia.
  pose proof (Z.log2_spec S HS) as [Hlo Hhi].
  pose proof (Z.log2_nonneg S) as Hl0.
  assert (Hl : Z.log2 S < 53) by (apply Z.log2_lt_pow2; lia).
  set (l := Z.log2 S) in *.
  change (Z.abs (1024 * 1024)) with (2 ^ 20) in Hx.
  change (Z.log2 (2 ^ 20)) with 20 in Hx.
  change (Z.sgn (1024 * 1024)) with 1 in Hx.
  rewrite (Z.abs_eq S), (Z.sgn_pos S) in Hx by lia.
  fold l in Hx.
  replace (Z.max 0 (l - 20 - 53)) with 0 in Hx by lia.
  replace (Z.max 0 (- (l - 20 - 53))) with (73 - l) in Hx by lia.
  assert (Hp : 2 ^ (73 - l) * 2 ^ l = 2 ^ 73)
    by (rewrite <- Z.pow_add_r by lia; f_equal; lia).
  assert (Hq : 0 < 2 ^ (73 - l)) by (apply Z.pow_pos_nonneg; lia).
  destruct (Z.leb_spec (2 ^ 53 * (2 ^ 20 * 2 ^ 0)) (S * 2 ^ (73 - l))) as [_|Hlt].
  2:{ exfalso. change (2 ^ 53 * (2 ^ 20 * 2 ^ 0)) with (2 ^ 73) in Hlt. nia. }
  replace (Z.max 0 (l - 20 - 53 + 1)) with 0 in Hx by lia.
  replace (Z.max 0 (- (l - 20 - 53 + 1))) with (52 - l + 20) in Hx by lia.
  rewrite Z.pow_add_r in Hx by lia.
  change (2 ^ 20 * 2 ^ 0) with (2 ^ 20) in Hx.
  rewrite Z.mul_assoc, round_half_even_exact in Hx by reflexivity.
  injection Hx as <-.
  assert (Hr : 0 < 2 ^ (52 - l)) by (apply Z.pow_pos_nonneg; lia).
  unfold format_1f, mebibytes_1f. cbn [mantissa exponent].
  destruct (Z.leb_spec 0 (l - 20 - 53 + 1)) as [?|_]; [lia|].
  destruct (Z.ltb_spec (1 * 1 * (S * 2 ^ (52 - l))) 0) as [?|_]; [nia|].
  rewrite Z.abs_eq by nia.
  replace (- (l - 20 - 53 + 1)) with (20 + (52 - l)) by lia.
  rewrite Z.pow_add_r by lia.
  replace (10 * (1 * 1 * (S * 2 ^ (52 - l)))) with (10 * S * 2 ^ (52 - l)) by lia.
  rewrite round_half_even_scale by (try reflexivity; lia).
  reflexivity.
Qed.

(** ** The index page *)

Import CustomHTTPRequestHandler.

Lemma html_0_encodes : encodes_with html_0 8.
Proof. eexists. split; vm_compute; reflexivity. Qed.
Lemma html_1_encodes : encodes_with html_1 3.
Proof. eexists. split; vm_compute; reflexivity. Qed.
Lemma html_2_encodes : encodes_with html_2 0.
Proof. eexists. split; vm_compute; reflexivity. Qed.
Lemma html_3_encodes : encodes_with html_3 0.
Proof. eexists. split; vm_compute; reflexivity. Qed.
Lemma html_4_encodes : encodes_with html_4 3.
Proof. eexists. split; vm_compute; reflexivity. Qed.
Lemma html_5_encodes : encodes_with html_5 0.
Proof. eexists. split; vm_compute; reflexivity. Qed.
Lemma html_6_encodes : encodes_with html_6 0.
Proof. eexists. split; vm_compute; reflexivity. Qed.
Lemma zip_file_core_encodes : encodes_with zip_file_core 0.
Proof. eexists. split; vm_compute; reflexivity. Qed.
Lemma zip_file_orig_encodes : encodes_with zip_file_orig 0.
Proof. eexists. split; vm_compute; reflexivity. Qed.


(** The page takes 14 bytes more than it has characters: the check mark
    of the style sheet takes three bytes and each of the four emoji
    four. *)
Lemma html_encodes x y : encodes_with (html x y) 14.
Proof.
  unfold html.
  change 14 with (8 + (0 + (3 + (0 + (0 + (0 + (0 + (0 + (3 + (0 + (0 + (0 + 0)))))))))))).
  apply encodes_with_app; [exact html_0_encodes|].
  apply encodes_with_app; [exact zip_file_core_encodes|].
  apply encodes_with_app; [exact html_1_encodes|].
  apply encodes_with_app; [exact zip_file_core_encodes|].
  apply encodes_with_app; [exact html_2_encodes|].
  apply encodes_with_app; [apply encodes_with_ascii, ascii_only_format_1f|].
  apply encodes_with_app; [exact html_3_encodes|].
  apply encodes_with_app; [exact zip_file_orig_encodes|].
  apply encodes_with_app; [exact html_4_encodes|].
  apply encodes_with_app; [exact zip_file_orig_encodes|].
  apply encodes_with_app; [exact html_5_encodes|].
  apply encodes_with_app; [apply encodes_with_ascii, ascii_only_format_1f|].
  exact html_6_encodes.
Qed.

Lemma bind_Return {S A B} (m : M S A) (k : A -> M S B) s a s' :
  m s = (Return a, s') -> bind m k s = k a s'.
Proof. unfold bind. now intros ->. Qed.

Section IndexPage.
Context `{Platform}.


Lemma zip_size_run fs zip_file (r : response) :
  (if Path_exists fs (Path_div DIRECTORY zip_file)
   then st <- Path_stat fs (Path_div DIRECTORY zip_file) ;; ret (st_size st)
   else ret 0) r = (Return (observed_size fs zip_file), r).
Proof.
  unfold Path_exists, Path_stat, observed_size.
  destruct (lookup_path fs (Path_div DIRECTORY zip_file)) as [n|].
  - rewrite bool_decide_true by eauto. reflexivity.
  - rewrite bool_decide_false by (intros [? ?]; discriminate). reflexivity.
Qed.

Lemma serve_index_run fs r0 :
  exists x y e,
    int_truediv (observed_size fs zip_file_core) (1024 * 1024) = Some x /\
    int_truediv (observed_size fs zip_file_orig) (1024 * 1024) = Some y /\
    encode (html x y) = Some e /\
    len e = len (html x y) + 14 /\
    serve_index fs r0 = (Return tt, index_response r0 (html x y) e).
Proof.
  destruct (int_truediv_total (observed_size fs zip_file_core) (1024 * 1024))
    as [x Hx]; [discriminate|].
  destruct (int_truediv_total (observed_size fs zip_file_orig) (1024 * 1024))
    as [y Hy]; [discriminate|].
  destruct (html_encodes x y) as (e & He & Le).
  exists x, y, e. repeat split; try assumption.
  unfold serve_index.
  rewrite (bind_Return _ _ _ _ _ (zip_size_run fs zip_file_orig r0)).
  unfold truediv at 1. rewrite Hy.
  unfold bind at 1, ret at 1.
  rewrite (bind_Return _ _ _ _ _ (zip_size_run fs zip_file_core r0)).
  unfold truediv at 1. rewrite Hx.
  unfold bind at 1, ret at 1.
  unfold str_encode. rewrite He.
  unfold index_response, end_headers, BaseHTTPRequestHandler.send_response,
    BaseHTTPRequestHandler.send_header, BaseHTTPRequestHandler.end_headers,
    BaseHTTPRequestHandler.wfile_write, bind, modify, ret.
  cbn [status _headers_buffer headers body].
  rewrite <- !app_assoc. reflexivity.
Qed.

End IndexPage.

Lemma html_1_ends : exists b, html_1 = b ++ lit "File: ".
Proof. exists (take 147 html_1). vm_compute. reflexivity. Qed.

Lemma html_4_ends : exists b, html_4 = b ++ lit "File: ".
Proof. exists (take 209 html_4). vm_compute. reflexivity. Qed.

Lemma html_2_eq : html_2 = lit "<br>
                Size: ".
Proof. vm_compute. reflexivity. Qed.

Lemma html_5_eq : html_5 = lit "<br>
                Size: ".
Proof. vm_compute. reflexivity. Qed.

Lemma html_3_starts : exists a, html_3 = lit " MB<br>" ++ a.
Proof. exists (drop 7 html_3). vm_compute. reflexivity. Qed.

Lemma html_6_starts : exists a, html_6 = lit " MB<br>" ++ a.
Proof. exists (drop 7 html_6). vm_compute. reflexivity. Qed.

Lemma html_contains_core x y :
  contains (size_lines zip_file_core (format_1f x)) (html x y).
Proof.
  destruct html_1_ends as [b Hb], html_3_starts as [a Ha].
  unfold html, size_lines, contains. rewrite Hb, Ha, html_2_eq.
  exists (html_0 ++ zip_file_core ++ b).
  eexists. rewrite <- !app_assoc. reflexivity.
Qed.

Lemma html_contains_orig x y :
  contains (size_lines zip_file_orig (format_1f y)) (html x y).
Proof.
  destruct html_4_ends as [b Hb], html_6_starts as [a Ha].
  unfold html, size_lines, contains. rewrite Hb, Ha, html_5_eq.
  exists (html_0 ++ zip_file_core ++ html_1 ++ zip_file_core ++ html_2 ++
          format_1f x ++ html_3 ++ zip_file_orig ++ b).
  exists a. rewrite <- !app_assoc. reflexivity.
Qed.

Section IndexProperties.
Context `{Platform}.

(** C1.  [serve_index] answers 200 with [Content-type: text/html], but its
    [Content-Length] is the number of characters of the page, [len(html)],
    while the body is the UTF-8 encoding of the page, which is 14 bytes
    longer: the header never equals the length of the body sent. *)
Theorem serve_index_content_length_counts_characters (fs : filesystem) :
  exists page encoded,
    serve_index fs empty_response =
      (Return tt,
       mkresponse (Some 200) []
         (Some [(lit "Content-type", lit "text/html");
                (lit "Content-Length", str_of_int (len page));
                (lit "Access-Control-Allow-Origin", lit "*");
                (lit "Access-Control-Allow-Methods", lit "GET, OPTIONS");
                (lit "Cache-Control", lit "no-store, no-cache, must-revalidate")])
         encoded) /\
    encode page = Some encoded /\
    len encoded = len page + 14.
Proof.
  destruct (serve_index_run fs empty_response) as (x & y & e & _ & _ & He & Le & Hrun).
  exists (html x y), e. repeat split; assumption.
Qed.




(** C6.  Two requests for [/] that find the two archives in the same state
    (there or not, and of the same size) get the same response, byte for
    byte: the page depends on the file system through these two sizes
    only. *)
Theorem serve_index_depends_on_sizes_only (fs1 fs2 : filesystem) :
  archive_view fs1 zip_file_core = archive_view fs2 zip_file_core ->
  archive_view fs1 zip_file_orig = archive_view fs2 zip_file_orig ->
  serve_index fs1 empty_response = serve_index fs2 empty_response.
Proof.
  intros Hc Ho.
  assert (Hobs : forall fs z, observed_size fs z = default 0 (archive_view fs z)).
  { intros fs z. unfold observed_size, archive_view.
    now destruct (lookup_path fs (Path_div DIRECTORY z)). }
  destruct (serve_index_run fs1 empty_response) as (x1 & y1 & e1 & Hx1 & Hy1 & He1 & _ & ->).
  destruct (serve_index_run fs2 empty_response) as (x2 & y2 & e2 & Hx2 & Hy2 & He2 & _ & ->).
  rewrite Hobs, Hc, <- Hobs, Hx2 in Hx1. injection Hx1 as ->.
  rewrite Hobs, Ho, <- Hobs, Hy2 in Hy1. injection Hy1 as ->.
  rewrite He2 in He1. injection He1 as ->. reflexivity.
Qed.


End IndexProperties.

(** ** Every response *)

Ltac run_library :=
  cbv [SimpleHTTPRequestHandler.do_GET SimpleHTTPRequestHandler.do_HEAD
       SimpleHTTPRequestHandler.send_head SimpleHTTPRequestHandler.send_file_head
       SimpleHTTPRequestHandler.list_directory
       BaseHTTPRequestHandler.send_error BaseHTTPRequestHandler.send_response
       BaseHTTPRequestHandler.send_header BaseHTTPRequestHandler.end_headers
       BaseHTTPRequestHandler.wfile_write
       CustomHTTPRequestHandler.end_headers CustomHTTPRequestHandler.self
       self_end_headers self_command self_path bind ret modify];
  cbn [status _headers_buffer headers body default from_option app].

Ltac skip_to_cors :=
  rewrite <- ?app_assoc;
  repeat match goal with
         | |- _ `suffix_of` (?x ++ _) =>
           lazymatch x with
           | [(lit "Access-Control-Allow-Origin", _)] => fail
           | _ => apply suffix_app_r
           end
         end;
  reflexivity.

Ltac finalized_now :=
  eexists; split; [reflexivity | skip_to_cors].

Section Responses.
Context `{Platform}.
Variable fs : filesystem.
Variable req : request.

Lemma send_error_finalized code message r0 :
  exists r, BaseHTTPRequestHandler.send_error (self req) code message r0 = (Return tt, r)
            /\ status r = Some code /\ finalized r.
Proof.
  unfold BaseHTTPRequestHandler.send_error.
  destruct ((200 <=? code) && negb (bool_decide (code ∈ [204; 205; 304])));
    [destruct (bool_decide (self_command (self req) <> lit "HEAD")
               && negb (bool_decide (error_body code message = [])))|];
    run_library; eexists; (split; [reflexivity|]);
    (split; [reflexivity|]); finalized_now.
Qed.

Lemma send_error_then_None_finalized code message r0 :
  exists (f : option bytes) r,
    (BaseHTTPRequestHandler.send_error (self req) code message ;; ret None) r0
      = (Return f, r) /\ finalized r.
Proof.
  destruct (send_error_finalized code message r0) as (r & Hrun & _ & Hfin).
  exists None, r. split; [|exact Hfin].
  now rewrite (bind_Return _ _ _ _ _ Hrun).
Qed.

Lemma send_file_head_finalized path r0 :
  exists f r, SimpleHTTPRequestHandler.send_file_head (self req) fs path r0 = (Return f, r)
              /\ finalized r.
Proof.
  unfold SimpleHTTPRequestHandler.send_file_head.
  destruct (endswith path (lit "/"));
    [apply send_error_then_None_finalized|].
  destruct (lookup_path fs path) as [[data|sz names]|];
    [|apply send_error_then_None_finalized..].
  run_library. do 2 eexists. split; [reflexivity|]. finalized_now.
Qed.

Lemma list_directory_finalized path names r0 :
  exists f r, SimpleHTTPRequestHandler.list_directory (self req) path names r0 = (Return f, r)
              /\ finalized r.
Proof.
  run_library. do 2 eexists. split; [reflexivity|]. finalized_now.
Qed.

Lemma send_head_finalized r0 :
  exists f r, SimpleHTTPRequestHandler.send_head (self req) fs r0 = (Return f, r)
              /\ finalized r.
Proof.
  unfold SimpleHTTPRequestHandler.send_head.
  change (self_path (self req)) with (path req).
  destruct (lookup_path fs (translate_path DIRECTORY (path req))) as [[data|sz names]|];
    try apply send_file_head_finalized.
  destruct (endswith (urlsplit_path (path req)) (lit "/")); cbn [negb].
  - destruct (lookup_path fs (os_path_join (translate_path DIRECTORY (path req)) (lit "index.html")))
      as [[?|? ?]|]; try apply send_file_head_finalized;
    destruct (lookup_path fs (os_path_join (translate_path DIRECTORY (path req)) (lit "index.htm")))
      as [[?|? ?]|]; try apply send_file_head_finalized;
    apply list_directory_finalized.
  - run_library. do 2 eexists. split; [reflexivity|]. finalized_now.
Qed.

Lemma library_do_GET_finalized r0 :
  exists r, SimpleHTTPRequestHandler.do_GET (self req) fs r0 = (Return tt, r)
            /\ finalized r.
Proof.
  destruct (send_head_finalized r0) as (f & r & Hrun & Hfin).
  unfold SimpleHTTPRequestHandler.do_GET. rewrite (bind_Return _ _ _ _ _ Hrun).
  destruct f as [data|]; eexists; (split; [reflexivity|]); exact Hfin.
Qed.

Lemma library_do_HEAD_finalized r0 :
  exists r, SimpleHTTPRequestHandler.do_HEAD (self req) fs r0 = (Return tt, r)
            /\ finalized r.
Proof.
  destruct (send_head_finalized r0) as (f & r & Hrun & Hfin).
  unfold SimpleHTTPRequestHandler.do_HEAD. rewrite (bind_Return _ _ _ _ _ Hrun).
  eexists. split; [reflexivity|]. exact Hfin.
Qed.

Lemma serve_index_finalized r0 :
  exists r, serve_index fs r0 = (Return tt, r) /\ finalized r.
Proof.
  destruct (serve_index_run fs r0) as (x & y & e & _ & _ & _ & _ & Hrun).
  eexists. split; [exact Hrun|]. unfold index_response.
  eexists. split; [reflexivity|]. do 2 apply suffix_app_r.
  eexists [_; _]. reflexivity.
Qed.

Lemma handle_one_request_finalized r0 :
  exists r, handle_one_request fs req r0 = (Return tt, r) /\ finalized r.
Proof.
  unfold handle_one_request, do_GET, do_HEAD.
  destruct (bool_decide (command req = lit "GET")).
  - destruct (bool_decide (path req = lit "/")).
    + apply serve_index_finalized.
    + apply library_do_GET_finalized.
  - destruct (bool_decide (command req = lit "HEAD")).
    + apply library_do_HEAD_finalized.
    + destruct (send_error_finalized 501 (lit "Unsupported method") r0)
        as (r & Hrun & _ & Hfin). eauto.
Qed.


End Responses.

(** ** Dispatch on the path *)

Lemma lookup_path_file_no_slash (fs : filesystem) p data :
  lookup_path fs p = Some (RegularFile data) -> endswith p (lit "/") = false.
Proof.
  unfold lookup_path. destruct (endswith p (lit "/")); [|reflexivity].
  destruct (fs !! take (length p - 1) p) as [[?|? ?]|]; discriminate.
Qed.

Section Dispatch.
Context `{Platform}.
Variable fs : filesystem.

Lemma do_GET_other req :
  path req <> lit "/" ->
  do_GET fs req = SimpleHTTPRequestHandler.do_GET (self req) fs.
Proof. intros Hne. unfold do_GET. now rewrite bool_decide_false. Qed.



End Dispatch.

(** ** Start and stop *)

Ltac run_main :=
  cbv [main try_except try_finally bind ret raise modify print sys_exit
       socketserver.TCPServer socketserver.serve_forever
       socketserver.server_close bind_raises serve_forever_raises start];
  cbn [stdout bound closed app].

Lemma stopped_line : lit "

  Server stopped." ++ lit "
" = lit "

  Server stopped.
".
Proof. vm_compute. reflexivity. Qed.

Section StartStop.
Context `{Platform}.


(** C8.  An interrupt while the server is serving is caught: [main] closes
    the socket, prints the shutdown message last and exits with status 0. *)
Theorem main_keyboard_interrupt :
  exists banner,
    main (mkscenario None (Some KeyboardInterrupt)) start =
      (Raise (SystemExit 0),
       mkprocess (banner ++ lit "

  Server stopped.
") [([], PORT)] 1) /\
    exit_status (main (mkscenario None (Some KeyboardInterrupt)) start).1 = Some 0.
Proof.
  assert (Hrun : exists banner,
    main (mkscenario None (Some KeyboardInterrupt)) start =
      (Raise (SystemExit 0),
       mkprocess (banner ++ lit "

  Server stopped.
") [([], PORT)] 1)).
  { run_main. rewrite stopped_line. eexists. reflexivity. }
  destruct Hrun as [banner Hrun]. exists banner. rewrite Hrun.
  split; reflexivity.
Qed.

End StartStop.

(** ** More on [main] *)

Section MainRuns.
Context `{Platform}.


(** X2.  An [OSError] raised while serving ends the server like a failed
    bind: the socket is closed, the report follows the banner (the
    port-in-use hint when the error number is 98, the text of the error
    otherwise) and the exit status is 1. *)
Theorem main_error_while_serving (errno : option Z) (text : str) :
  main (mkscenario None (Some (OSError errno text))) start =
    (Raise (SystemExit 1),
     mkprocess (banner DIRECTORY ++ error_report errno text) [([], PORT)] 1) /\
  exit_status (main (mkscenario None (Some (OSError errno text))) start).1 = Some 1.
Proof.
  assert (Hrun : main (mkscenario None (Some (OSError errno text))) start =
    (Raise (SystemExit 1),
     mkprocess (banner DIRECTORY ++ error_report errno text) [([], PORT)] 1)).
  { run_main. unfold banner, error_report.
    destruct (bool_decide (errno = Some 98)); run_main;
      rewrite <- !app_assoc; vm_compute; reflexivity. }
  rewrite Hrun. split; reflexivity.
Qed.


Lemma main_run (sc : scenario) :
  exists out,
    main sc start =
      (match first_exception sc with
       | None => Forever
       | Some KeyboardInterrupt => Raise (SystemExit 0)
       | Some (OSError _ _) => Raise (SystemExit 1)
       | Some e => Raise e
       end,
       mkprocess out [([], 8080)]
         match bind_raises sc, serve_forever_raises sc with
         | None, Some _ => 1%nat
         | _, _ => 0%nat
         end).
Proof.
  destruct sc as [[e1|] later]; unfold first_exception;
    cbn [bind_raises serve_forever_raises];
    [destruct e1 as [| | |errno1 text1|code1]
    |destruct later as [e2|]; [destruct e2 as [| | |errno2 text2|code2]|]];
    run_main;
    repeat match goal with
           | |- context [bool_decide (?e = Some 98)] =>
             destruct (bool_decide (e = Some 98)); run_main
           end;
    eexists; reflexivity.
Qed.


End MainRuns.

(** ** More on the index page *)

Lemma round_half_even_nearest n d :
  0 < d -> 2 * Z.abs (d * round_half_even n d - n) <= d.
Proof.
  intros Hd. unfold round_half_even.
  pose proof (Z.div_mod n d ltac:(lia)) as Hn.
  pose proof (Z.mod_pos_bound n d Hd) as Hr.
  destruct (Z.ltb_spec (2 * (n mod d)) d); [lia|].
  destruct (Z.ltb_spec d (2 * (n mod d))); [lia|].
  destruct (Z.even (n / d)); lia.
Qed.

Lemma round_half_even_nonneg n d : 0 < d -> 0 <= n -> 0 <= round_half_even n d.
Proof.
  intros Hd Hn. unfold round_half_even.
  pose proof (Z.div_pos n d Hn Hd).
  destruct (2 * (n mod d) <? d); [lia|].
  destruct (d <? 2 * (n mod d)); [lia|].
  destruct (Z.even (n / d)); lia.
Qed.

Lemma str_of_int_digit k :
  0 <= k <= 9 -> str_of_int k = [(48 + Z.to_N k)%N].
Proof.
  intros Hk.
  assert (Hc : k = 0 \/ k = 1 \/ k = 2 \/ k = 3 \/ k = 4 \/
               k = 5 \/ k = 6 \/ k = 7 \/ k = 8 \/ k = 9) by lia.
  repeat (destruct Hc as [->|Hc]; [vm_compute; reflexivity|]).
  subst k. vm_compute. reflexivity.
Qed.

Lemma mebibytes_1f_small S : 0 <= S <= 52428 -> mebibytes_1f S = lit "0.0".
Proof.
  intros HS. unfold mebibytes_1f.
  assert (Hr : round_half_even (10 * S) (1024 * 1024) = 0).
  { unfold round_half_even.
    rewrite Z.div_small, Z.mod_small by lia.
    destruct (Z.ltb_spec (2 * (10 * S)) (1024 * 1024)); [reflexivity | lia]. }
  rewrite Hr. vm_compute. reflexivity.
Qed.

Lemma html_0_ends : exists b, html_0 = b ++ lit "<a href=`".
Proof. exists (take (length html_0 - 9) html_0). vm_compute. reflexivity. Qed.

Lemma html_3_ends : exists b, html_3 = b ++ lit "<a href=`".
Proof. exists (take (length html_3 - 9) html_3). vm_compute. reflexivity. Qed.

Lemma html_1_starts : exists a, html_1 = lit "` class=`download-btn` download" ++ a.
Proof. exists (drop 31 html_1). vm_compute. reflexivity. Qed.

Lemma html_4_starts : exists a, html_4 = lit "` class=`download-btn` download" ++ a.
Proof. exists (drop 31 html_4). vm_compute. reflexivity. Qed.

(** The link the page gives for an archive. *)
Lemma html_links_core x y :
  contains (lit "<a href=`" ++ zip_file_core ++ lit "` class=`download-btn` download")
           (html x y).
Proof.
  destruct html_0_ends as [b Hb], html_1_starts as [a Ha].
  unfold html, contains. rewrite Hb, Ha.
  exists b. eexists. rewrite <- !app_assoc. reflexivity.
Qed.

Lemma html_links_orig x y :
  contains (lit "<a href=`" ++ zip_file_orig ++ lit "` class=`download-btn` download")
           (html x y).
Proof.
  destruct html_3_ends as [b Hb], html_4_starts as [a Ha].
  unfold html, contains. rewrite Hb, Ha.
  exists (html_0 ++ zip_file_core ++ html_1 ++ zip_file_core ++ html_2 ++
          format_1f x ++ b).
  eexists. rewrite <- !app_assoc. reflexivity.
Qed.

Section IndexMore.
Context `{Platform}.

Lemma observed_size_nonneg fs zip_file : 0 <= observed_size fs zip_file.
Proof.
  unfold observed_size.
  destruct (lookup_path fs (Path_div DIRECTORY zip_file)) as [[data|sz names]|];
    simpl; unfold len; lia.
Qed.

Lemma observed_size_view fs zip_file :
  observed_size fs zip_file = default 0 (archive_view fs zip_file).
Proof.
  unfold observed_size, archive_view.
  now destruct (lookup_path fs (Path_div DIRECTORY zip_file)).
Qed.

(** X5.  An archive of at most 52428 bytes (less than 0.05 MiB) is shown
    with the size 0.0, like a missing one: when neither archive is larger,
    the response is the one for an empty directory. *)
Theorem serve_index_small_archives_look_missing (fs : filesystem) :
  (forall size, archive_view fs zip_file_core = Some size -> size <= 52428) ->
  (forall size, archive_view fs zip_file_orig = Some size -> size <= 52428) ->
  serve_index fs empty_response = serve_index ∅ empty_response.
Proof.
  intros Hc Ho.
  assert (Hsmall : forall fs' z x,
            (forall size, archive_view fs' z = Some size -> size <= 52428) ->
            int_truediv (observed_size fs' z) (1024 * 1024) = Some x ->
            format_1f x = lit "0.0").
  { intros fs' z x Hle Hx.
    pose proof (observed_size_nonneg fs' z) as Hpos.
    assert (Hup : observed_size fs' z <= 52428).
    { rewrite observed_size_view.
      destruct (archive_view fs' z) as [size|]; [now apply Hle | simpl; lia]. }
    assert (Hbig : 52428 < 2 ^ 53) by reflexivity.
    rewrite (format_1f_truediv_exact (observed_size fs' z) x) by (try exact Hx; lia).
    apply mebibytes_1f_small. lia. }
  assert (Hempty : forall z size, archive_view ∅ z = Some size -> size <= 52428).
  { intros z size. unfold archive_view, lookup_path.
    destruct (endswith (Path_div DIRECTORY z) (lit "/"));
      rewrite lookup_empty; discriminate. }
  destruct (serve_index_run fs empty_response) as (x1 & y1 & e1 & Hx1 & Hy1 & He1 & _ & ->).
  destruct (serve_index_run ∅ empty_response) as (x2 & y2 & e2 & Hx2 & Hy2 & He2 & _ & ->).
  assert (Hpage : html x1 y1 = html x2 y2).
  { unfold html.
    rewrite (Hsmall fs zip_file_core x1 Hc Hx1), (Hsmall fs zip_file_orig y1 Ho Hy1),
      (Hsmall ∅ zip_file_core x2 (Hempty _) Hx2),
      (Hsmall ∅ zip_file_orig y2 (Hempty _) Hy2).
    reflexivity. }
  rewrite Hpage in *. rewrite He2 in He1. injection He1 as ->. reflexivity.
Qed.

(** X6.  Below [2^53] bytes the size of an archive is shown with an
    integer part, a point and exactly one digit, and the number shown is
    within 0.05 MiB of the size: for [t] tenths shown,
    [|t / 10 - S / 2^20| <= 1/20]. *)
Theorem serve_index_size_is_accurate (fs : filesystem) (zip_file : str) (n : node) :
  zip_file = zip_file_core \/ zip_file = zip_file_orig ->
  lookup_path fs (Path_div DIRECTORY zip_file) = Some n ->
  st_size (node_stat n) < 2 ^ 53 ->
  exists page r tenths digit,
    serve_index fs empty_response = (Return tt, r) /\
    encode page = Some (body r) /\
    contains (size_lines zip_file (str_of_int (tenths / 10) ++ lit "." ++ [digit])) page /\
    0 <= tenths /\
    digit = (48 + Z.to_N (tenths mod 10))%N /\
    2 * Z.abs (1024 * 1024 * tenths - 10 * st_size (node_stat n)) <= 1024 * 1024.
Proof.
  intros Hz Hn Hlt.
  destruct (serve_index_run fs empty_response) as (x & y & e & Hx & Hy & He & _ & Hrun).
  assert (Hs : observed_size fs zip_file = st_size (node_stat n))
    by (unfold observed_size; now rewrite Hn).
  assert (Hpos : 0 <= st_size (node_stat n))
    by (rewrite <- Hs; apply observed_size_nonneg).
  set (S := st_size (node_stat n)) in *.
  set (t := round_half_even (10 * S) (1024 * 1024)).
  assert (Ht : 0 <= t) by (apply round_half_even_nonneg; lia).
  assert (Hfmt : mebibytes_1f S =
                 str_of_int (t / 10) ++ lit "." ++ [(48 + Z.to_N (t mod 10))%N]).
  { unfold mebibytes_1f, one_decimal. fold t.
    rewrite (str_of_int_digit (t mod 10))
      by (pose proof (Z.mod_pos_bound t 10); lia).
    reflexivity. }
  exists (html x y), (index_response empty_response (html x y) e), t,
    (48 + Z.to_N (t mod 10))%N.
  repeat split; try assumption.
  - rewrite <- Hfmt. destruct Hz as [-> | ->]; rewrite Hs in *.
    + rewrite <- (format_1f_truediv_exact S x (conj Hpos Hlt) Hx).
      apply html_contains_core.
    + rewrite <- (format_1f_truediv_exact S y (conj Hpos Hlt) Hy).
      apply html_contains_orig.
  - apply round_half_even_nearest. lia.
Qed.

End IndexMore.

(** ** More on the responses *)

Section Downloads.
Context `{Platform}.
Variable fs : filesystem.

Lemma library_do_GET_file req data :
  lookup_path fs (translate_path DIRECTORY (path req)) = Some (RegularFile data) ->
  SimpleHTTPRequestHandler.do_GET (self req) fs empty_response =
  (Return tt,
   mkresponse (Some 200) []
     (Some ([(lit "Content-type", guess_type (translate_path DIRECTORY (path req)));
             (lit "Content-Length", str_of_int (len data));
             (lit "Last-Modified", last_modified (translate_path DIRECTORY (path req)))]
            ++ cors_headers))
     data).
Proof.
  intros Hfile.
  unfold SimpleHTTPRequestHandler.do_GET, SimpleHTTPRequestHandler.send_head,
    SimpleHTTPRequestHandler.send_file_head.
  change (self_path (self req)) with (path req).
  rewrite Hfile, (lookup_path_file_no_slash _ _ _ Hfile).
  run_library. reflexivity.
Qed.


End Downloads.

Section Answers.
Context `{Platform}.
Variable fs : filesystem.
Variable req : request.

(** What every answer of the inherited handler satisfies: the header
    block is written with each fixed header once, and a [HEAD] request
    gets no body. *)
Definition head_answer (r : response) : Prop :=
  (exists hs, headers r = Some hs /\ fixed_headers_once hs) /\
  (command req = lit "HEAD" -> body r = []).

Lemma send_error_answer code message :
  exists r,
    BaseHTTPRequestHandler.send_error (self req) code message empty_response
      = (Return tt, r) /\ head_answer r.
Proof.
  unfold BaseHTTPRequestHandler.send_error, head_answer.
  change (self_command (self req)) with (command req).
  destruct ((200 <=? code) && negb (bool_decide (code ∈ [204; 205; 304])));
    [destruct (bool_decide (command req <> lit "HEAD")
               && negb (bool_decide (error_body code message = []))) eqn:E|];
    unfold empty_response; run_library;
    (eexists; split; [reflexivity|]);
    (split; [eexists; split; [reflexivity|]; vm_compute; repeat split; reflexivity|]);
    cbn [body]; try reflexivity.
  intros Hhead. apply andb_prop in E as [E _].
  apply bool_decide_eq_true in E. contradiction.
Qed.

Lemma send_error_then_None_answer code message :
  exists (f : option bytes) r,
    (BaseHTTPRequestHandler.send_error (self req) code message ;; ret None) empty_response
      = (Return f, r) /\ head_answer r.
Proof.
  destruct (send_error_answer code message) as (r & Hrun & Hans).
  exists None, r. split; [|exact Hans].
  now rewrite (bind_Return _ _ _ _ _ Hrun).
Qed.

Lemma send_file_head_answer path :
  exists f r, SimpleHTTPRequestHandler.send_file_head (self req) fs path empty_response
                = (Return f, r) /\ head_answer r.
Proof.
  unfold SimpleHTTPRequestHandler.send_file_head.
  destruct (endswith path (lit "/"));
    [apply send_error_then_None_answer|].
  destruct (lookup_path fs path) as [[data|sz names]|];
    [|apply send_error_then_None_answer..].
  unfold head_answer, empty_response. run_library.
  do 2 eexists. split; [reflexivity|].
  split; [eexists; split; [reflexivity|]; vm_compute; repeat split; reflexivity|].
  reflexivity.
Qed.

Lemma send_head_answer :
  exists f r, SimpleHTTPRequestHandler.send_head (self req) fs empty_response
                = (Return f, r) /\ head_answer r.
Proof.
  unfold SimpleHTTPRequestHandler.send_head.
  change (self_path (self req)) with (path req).
  destruct (lookup_path fs (translate_path DIRECTORY (path req))) as [[data|sz names]|];
    try apply send_file_head_answer.
  destruct (endswith (urlsplit_path (path req)) (lit "/")); cbn [negb].
  - destruct (lookup_path fs (os_path_join (translate_path DIRECTORY (path req)) (lit "index.html")))
      as [[?|? ?]|]; try apply send_file_head_answer;
    destruct (lookup_path fs (os_path_join (translate_path DIRECTORY (path req)) (lit "index.htm")))
      as [[?|? ?]|]; try apply send_file_head_answer;
    (unfold head_answer, empty_response; run_library;
     do 2 eexists; (split; [reflexivity|]);
     (split; [eexists; split; [reflexivity|]; vm_compute; repeat split; reflexivity|]);
     reflexivity).
  - unfold head_answer, empty_response. run_library.
    do 2 eexists. split; [reflexivity|].
    split; [eexists; split; [reflexivity|]; vm_compute; repeat split; reflexivity|].
    reflexivity.
Qed.




End Answers.

(** ** The properties at work *)

#[local] Existing Instance plain_platform.



Lemma serve_index_depends_on_sizes_only_witness :
  fs_core_only <> fs_core_and_notes /\
  @serve_index plain_platform fs_core_only empty_response =
  @serve_index plain_platform fs_core_and_notes empty_response.
Proof.
  split.
  - intros Heq.
    assert (Hl : fs_core_only !! lit "/srv/build/notes.txt" =
                 fs_core_and_notes !! lit "/srv/build/notes.txt") by now rewrite Heq.
    vm_compute in Hl. discriminate.
  - apply (@serve_index_depends_on_sizes_only plain_platform);
      vm_compute; reflexivity.
Defined.




Lemma serve_index_small_archives_look_missing_witness :
  @serve_index plain_platform fs_core_only empty_response =
  @serve_index plain_platform ∅ empty_response.
Proof.
  apply (@serve_index_small_archives_look_missing plain_platform fs_core_only);
    intros size Hsize; vm_compute in Hsize;
    [injection Hsize as <-; vm_compute | ]; discriminate.
Defined.

Lemma serve_index_size_is_accurate_witness :
  exists page r tenths digit,
    @serve_index plain_platform fs_core_only empty_response = (Return tt, r) /\
    encode page = Some (body r) /\
    contains (size_lines zip_file_core (str_of_int (tenths / 10) ++ lit "." ++ [digit]))
             page /\
    0 <= tenths /\
    digit = (48 + Z.to_N (tenths mod 10))%N /\
    2 * Z.abs (1024 * 1024 * tenths - 10 * st_size (node_stat (RegularFile four_kibibytes)))
      <= 1024 * 1024.
Proof.
  apply (@serve_index_size_is_accurate plain_platform fs_core_only zip_file_core
           (RegularFile four_kibibytes));
    [left; reflexivity | vm_compute; reflexivity | vm_compute; reflexivity].
Defined.



